(** * Node selection of the metric-driven Kubernetes scheduler (methods.go)

    A shallow embedding of [getMetrics], [getBestNodeByMetrics],
    [bestNodeFromList], [nodesAvailable] and [scheduler], with the process
    state (the two cache slots, the telemetry requests sent, the log) passed
    explicitly, and the properties of the ranking pass, of the cache and of
    the binding payload proved over it. *)

From Stdlib Require Import ZArith Ascii String List Sorting.Sorted.
From Stdlib Require Import Floats.SpecFloat.
From stdpp Require Import base tactics option list sorting strings gmap.

Local Open Scope string_scope.

(** ** float64

    A Go [float64] is an IEEE 754 binary64 value: [spec_float] at precision
    53 and maximal exponent 1024, with the comparisons [SFltb], [SFleb] and
    [SFeqb] for [<], [<=] and [==]. *)
Module F64.

Definition prec : Z := 53.
Definition emax : Z := 1024.

Definition t : Type := spec_float.

Definition zero : t := S754_zero false.

(** The literal [-1]: sign bit set, mantissa [2^52], exponent [-52]. *)
Definition minus_one : t := S754_finite true 4503599627370496 (-52)%Z.

Definition is_nan (x : t) : bool :=
  match x with S754_nan => true | _ => false end.

Definition is_finite (x : t) : bool :=
  match x with S754_zero _ | S754_finite _ _ _ => true | _ => false end.

(** What [encoding/json] can decode into a [float64]: a finite binary64
    (JSON has no literal for NaN or the infinities, and a number out of
    range is a decoding error). *)
Definition json_number (x : t) : bool :=
  is_finite x && valid_binary prec emax x.

(** Small integers as binary64 values, for examples. *)
Definition of_Z (z : Z) : t := binary_normalize prec emax z 0%Z false.

End F64.

(** ** Data model *)

(** The errors of the package: the three sentinel values methods.go names,
    the error [getMetrics] formats from a response status, and the errors
    handed over by the HTTP client, the JSON decoder and the Kubernetes
    client. *)
Inductive error : Type :=
  | emptyNodeList
  | noNodeFound
  | noDataFound
  | metricDataResponse (status : string)
  | foreignError (msg : string).

Global Instance error_eq_dec : EqDecision error.
Proof. solve_decision. Defined.

(** [Node], with the fields methods.go reads and writes. *)
Record Node : Type := mkNode {
  name : string;
  metric : F64.t;
  err : option error
}.

(** The zero value of [Node], which a named result holds until assigned. *)
Definition zeroNode : Node := mkNode "" F64.zero None.

Definition NodeList : Type := list Node.

(** Modelled from the spec: [NodeList]'s [Less] method of [sort.Interface],
    declared outside methods.go ("sort all successful Nodes by metric
    ascending"): element [a] goes before element [b] when its metric is
    smaller. *)
Definition Less (a b : Node) : bool := SFltb (metric a) (metric b).

(** The order [sort.Sort] establishes: no element is [Less] than one
    before it. *)
Definition ascending (a b : Node) : Prop := Less b a = false.

(** One call of [sysdigAPI.GetData(metrics, start, end, sampling, filter,
    group)]; [metrics] is the configured metric, the same in every call. *)
Record Query : Type := mkQuery {
  q_start : Z;
  q_end : Z;
  q_sampling : Z;
  q_filter : string;
  q_group : string
}.

(** The response of the telemetry service. [Body] is what [json.Unmarshal]
    makes of the bytes read: an error, or the [data] array with the [d]
    array of each series. *)
Record Response : Type := mkResponse {
  StatusCode : Z;
  Status : string;
  Body : error + list (list F64.t)
}.

Inductive LogLine : Type :=
  | LogUsingCache
  | LogRetrieving (nodeName : string) (e : error)
  | LogError (e : error).

(** Modelled from the spec: the cache type behind [cachedNodes] and
    [bestCachedNode], declared outside methods.go: a slot that is empty
    until [SetData] stores a value, has no expiry timer, and whose [Data]
    returns the stored value with [ok = true], or [ok = false] while
    empty. *)
Definition Cache (A : Type) : Type := option A.

Definition Data {A : Type} (c : Cache A) : option A := c.

Definition SetData {A : Type} (v : A) (c : Cache A) : Cache A := Some v.

(** The process state: the two package-level cache slots, and what the
    process has sent out so far (telemetry requests and log lines, oldest
    first). *)
Record World : Type := mkWorld {
  cachedNodes : Cache (list string);
  bestCachedNode : Cache Node;
  telemetry : list Query;
  logged : list LogLine
}.

Definition emptyWorld : World := mkWorld None None [] [].

Definition set_cachedNodes (f : Cache (list string) -> Cache (list string))
    (w : World) : World :=
  mkWorld (f (cachedNodes w)) (bestCachedNode w) (telemetry w) (logged w).

Definition set_bestCachedNode (f : Cache Node -> Cache Node) (w : World) : World :=
  mkWorld (cachedNodes w) (f (bestCachedNode w)) (telemetry w) (logged w).

Definition send (q : Query) (w : World) : World :=
  mkWorld (cachedNodes w) (bestCachedNode w) (telemetry w ++ [q]) (logged w).

Definition log_Println (l : LogLine) (w : World) : World :=
  mkWorld (cachedNodes w) (bestCachedNode w) (telemetry w) (logged w ++ [l]).

(** ** The environment *)

(** The telemetry service. Its answer to a request may depend on the
    requests before it; a decoded body holds JSON numbers only. *)
Class SysdigAPI : Type := {
  GetData : list Query -> Query -> error + Response;
  GetData_json : forall sent q r data,
    GetData sent q = inr r -> Body r = inr data ->
    Forall (Forall (fun x => F64.json_number x = true)) data
}.

(** What the Go runtime and library decide: the order in which the workers'
    sends reach a channel, and [sort.Sort] at [NodeList], which permutes the
    list so that it is ascending (for metrics that can be compared). *)
Class GoRuntime : Type := {
  received : list Node -> list Node;
  received_perm : forall l, received l ≡ₚ l;
  sort_Sort : NodeList -> NodeList;
  sort_Sort_perm : forall l, sort_Sort l ≡ₚ l;
  sort_Sort_sorted : forall l,
    Forall (fun n => F64.is_nan (metric n) = false) l ->
    StronglySorted ascending (sort_Sort l)
}.

(** ** methods.go *)

(** [strings.Split(s, ".")]. *)
Fixpoint strings_Split_dot (s : string) : list string :=
  match s with
  | EmptyString => [EmptyString]
  | String c rest =>
      if Ascii.eqb c "." then EmptyString :: strings_Split_dot rest
      else match strings_Split_dot rest with
           | [] => [String c EmptyString]
           | part :: parts => String c part :: parts
           end
  end.

Definition nodeNameLittle (nodeName : string) : string :=
  hd EmptyString (strings_Split_dot nodeName).

(** The request [getMetrics] sends for a host: the last 60 seconds, one
    sample, filtered to the host. *)
Definition hostQuery (hostname : string) : Query :=
  mkQuery (-60) 0 60 ("host.hostName = '" ++ hostname ++ "'") "host".

Section Methods.
Context `{!SysdigAPI} `{!GoRuntime}.
Variable sysdigMetricLower : bool.

Definition getMetrics (hostname : string) (w : World)
    : (F64.t * option error) * World :=
  let hostFilter := hostQuery hostname in
  let w' := send hostFilter w in
  match GetData (telemetry w) hostFilter with
  | inl e => ((F64.zero, Some e), w')
  | inr metricDataResponse_ =>
      if negb (StatusCode metricDataResponse_ =? 200)%Z then
        ((F64.zero, Some (metricDataResponse (Status metricDataResponse_))), w')
      else
        match Body metricDataResponse_ with
        | inl e => ((F64.zero, Some e), w')
        | inr metricData =>
            match metricData with
            | (metricValue :: _) :: _ => ((metricValue, None), w')
            | _ => ((F64.zero, Some noDataFound), w')
            end
        end
  end.

(** The workers of one pass, in launch order: each sends its node on
    [nodeStatsChannel] (first list) or [nodeStatsErrorsChannel] (second).
    The workers are goroutines, and the order in which their requests go
    out is the scheduler's: [telemetry] lists the requests of a pass in
    launch order by convention, and the properties of a pass speak of them
    up to permutation. *)
Fixpoint launch (nodes : list string) (w : World)
    : (list Node * list Node) * World :=
  match nodes with
  | [] => (([], []), w)
  | nodeName :: rest =>
      let '((metricsValue, e), w1) := getMetrics (nodeNameLittle nodeName) w in
      let '((stats, errors), w2) := launch rest w1 in
      match e with
      | None => ((mkNode nodeName metricsValue None :: stats, errors), w2)
      | Some e => ((stats, mkNode nodeName F64.zero (Some e) :: errors), w2)
      end
  end.

Definition bestNodeFromList (list : NodeList) : Node :=
  let list := sort_Sort list in
  let lenght := length list in
  if (0 <? lenght)%nat then
    if sysdigMetricLower then nth 0 list zeroNode
    else nth (lenght - 1) list zeroNode
  else zeroNode.

Definition logErrors (errors : list Node) (w : World) : World :=
  fold_left
    (fun w node =>
       match err node with
       | Some e => log_Println (LogRetrieving (name node) e) w
       | None => w
       end)
    errors w.

(** The cache check at the head of [getBestNodeByMetrics]: the cached best
    node, when the cached node list is there and deeply equal to [nodes] and
    a cached best node is there. The check runs on a non-empty [nodes] only,
    where [reflect.DeepEqual] on two [[]string] is equality element by
    element. *)
Definition usingCache (nodes : list string) (w : World) : option Node :=
  match Data (cachedNodes w) with
  | Some cachedNodes_ =>
      if decide (cachedNodes_ = nodes) then Data (bestCachedNode w) else None
  | None => None
  end.

(** One call, from the state [w] it finds to the pair of named results and
    the state it leaves. The call holds [bestNodeMutex] from start to end;
    a single call has nothing to say about it. *)
Definition getBestNodeByMetrics (nodes : list string) (w : World)
    : (Node * option error) * World :=
  if (length nodes =? 0)%nat then ((zeroNode, Some emptyNodeList), w)
  else
    match usingCache nodes w with
    | Some bestNode => ((bestNode, None), log_Println LogUsingCache w)
    | None =>
        let '((stats, errors), w1) := launch nodes w in
        let nodeList := received stats in
        let bestNodeFound := bestNodeFromList nodeList in
        let w2 := logErrors (received errors) w1 in
        let e :=
          if (String.eqb (name bestNodeFound) "" ||
              SFeqb (metric bestNodeFound) F64.minus_one)%bool
          then Some noNodeFound else None in
        let w3 :=
          match e with
          | None => set_bestCachedNode (SetData bestNodeFound) w2
          | Some _ => w2
          end in
        ((bestNodeFound, e), w3)
    end.

(** The nodes whose fetch succeeds in a pass over [nodes] that starts in
    [w], in launch order. *)
Definition nodeStats (nodes : list string) (w : World) : list Node :=
  (launch nodes w).1.1.

End Methods.

(** *** nodesAvailable *)

Record Condition : Type := mkCondition {
  c_Type : string;
  c_Status : string
}.

Record KubeNode : Type := mkKubeNode {
  Metadata_Name : string;
  Status_Conditions : list Condition
}.

(** The two nested loops of [nodesAvailable]: a name is appended once for
    every condition of the node that has status "True" and type "Ready". *)
Definition readyNames (nodes : list KubeNode) : list string :=
  flat_map
    (fun node =>
       flat_map
         (fun status =>
            if (String.eqb (c_Status status) "True" &&
                String.eqb (c_Type status) "Ready")%bool
            then [Metadata_Name node] else [])
         (Status_Conditions node))
    nodes.

(** [listNodes] is what [kubeAPI.ListNodes()] answers if it is called. *)
Definition nodesAvailable (listNodes : list KubeNode * option error) (w : World)
    : list string * World :=
  match Data (cachedNodes w) with
  | Some nodes => (nodes, w)
  | None =>
      let '(nodes, e) := listNodes in
      let w1 :=
        match e with
        | Some e => log_Println (LogError e) w
        | None => w
        end in
      let readyNodes := readyNames nodes in
      (readyNodes, set_cachedNodes (SetData readyNodes) w1)
  end.

(** *** scheduler *)

Section Binder.
(** [json.Marshal] at the type of [body], and
    [kubeAPI.CreateNamespacedBinding], whose result [scheduler] hands back
    as it is. *)
Context {Payload HTTPResponse : Type}.
Variable json_Marshal : gmap string (gmap string string) -> Payload * option error.
Variable CreateNamespacedBinding :
  string -> Payload -> option HTTPResponse * option error.

Definition bindingBody (podName nodeName namespace : string)
    : gmap string (gmap string string) :=
  {[ "target" :=
       {[ "kind" := "Node";
          "apiVersion" := "v1";
          "name" := nodeName;
          "namespace" := namespace ]};
     "metadata" :=
       {[ "name" := podName;
          "namespace" := namespace ]} ]}.

Definition scheduler (podName nodeName namespace : string)
    : option HTTPResponse * option error :=
  let namespace := if String.eqb namespace "" then "default" else namespace in
  let body := bindingBody podName nodeName namespace in
  let '(data, e) := json_Marshal body in
  match e with
  | Some e => (None, Some e)
  | None => CreateNamespacedBinding namespace data
  end.

End Binder.

(** ** Comparing float64 values *)

Module F64Facts.
Import F64.

Lemma json_number_not_nan x : json_number x = true -> is_nan x = false.
Proof. by destruct x. Qed.

Ltac order_cases :=
  repeat match goal with
  | |- context [(?a ?= ?b)%Z] => destruct (Z.compare_spec a b)
  | |- context [PosDef.Pos.compare_cont Eq ?a ?b] =>
      let H := fresh in
      pose proof (Pos.compare_spec a b) as H;
      change (Pos.compare a b) with (PosDef.Pos.compare_cont Eq a b) in H;
      destruct H
  end.

Ltac crush_order :=
  unfold SFleb, SFltb, SFeqb, SFcompare;
  repeat match goal with s : bool |- _ => destruct s end;
  try discriminate; try reflexivity;
  order_cases; simpl; try discriminate; try reflexivity; try lia.

(** On values that are not NaN, [<=] is a total preorder and [<] its
    strict part. *)
Lemma leb_refl x : is_nan x = false -> SFleb x x = true.
Proof. destruct x; try discriminate; intros _; crush_order. Qed.

Lemma leb_trans x y z :
  SFleb x y = true -> SFleb y z = true -> SFleb x z = true.
Proof. destruct x, y, z; crush_order. Qed.

Lemma not_ltb_leb x y :
  is_nan x = false -> is_nan y = false -> SFltb y x = false -> SFleb x y = true.
Proof. destruct x, y; try discriminate; intros _ _; crush_order. Qed.

Lemma leb_not_ltb x y : SFleb x y = true -> SFltb y x = false.
Proof. destruct x, y; crush_order. Qed.

Lemma ltb_asym x y : SFltb x y = true -> SFltb y x = false.
Proof. destruct x, y; crush_order. Qed.

Lemma eqb_minus_one_of_Z : SFeqb (of_Z (-1)%Z) minus_one = true.
Proof. reflexivity. Qed.

End F64Facts.

(** On nodes whose metric can be compared, [ascending] is transitive, so a
    list whose neighbours are in order is in order throughout. *)
Lemma ascending_trans (a b c : Node) :
  F64.is_nan (metric a) = false -> F64.is_nan (metric b) = false ->
  F64.is_nan (metric c) = false ->
  ascending a b -> ascending b c -> ascending a c.
Proof.
  unfold ascending, Less. intros Ha Hb Hc Hab Hbc.
  apply F64Facts.leb_not_ltb.
  apply (F64Facts.leb_trans _ (metric b)); by apply F64Facts.not_ltb_leb.
Qed.

Lemma ascending_total (a b : Node) : ascending a b \/ ascending b a.
Proof.
  unfold ascending, Less.
  destruct (SFltb (metric b) (metric a)) eqn:E; [right | by left].
  by apply F64Facts.ltb_asym.
Qed.

Lemma Sorted_ascending_strongly (l : NodeList) :
  Forall (fun n => F64.is_nan (metric n) = false) l ->
  Sorted ascending l -> StronglySorted ascending l.
Proof.
  induction l as [|a l IH]; intros Hnan Hs; [constructor|].
  apply Forall_cons in Hnan as [Ha Hl].
  apply Sorted_inv in Hs as [Hs Hhd].
  specialize (IH Hl Hs). constructor; [done|].
  destruct Hhd as [|b l' Hab]; [constructor|].
  apply StronglySorted_inv in IH as [_ Hb].
  apply Forall_cons in Hl as [Hnb Hl'].
  constructor; [done|].
  rewrite Forall_forall in Hb, Hl' |- *.
  intros c Hc. eapply (ascending_trans a b c); eauto.
Qed.

(** ** Environments for the examples *)

Global Instance ascending_dec (a b : Node) : Decision (ascending a b).
Proof. unfold ascending. apply _. Defined.

Global Instance ascending_Total : Total ascending.
Proof. intros a b. apply ascending_total. Qed.

(** Channels deliver in launch order, and [sort.Sort] is a stable merge
    sort. *)
Program Definition fifoRuntime : GoRuntime := {|
  received l := l;
  sort_Sort l := merge_sort ascending l
|}.
Next Obligation. done. Qed.
Next Obligation. intros l. apply merge_sort_Permutation. Qed.
Next Obligation.
  intros l Hnan. apply Sorted_ascending_strongly.
  - by rewrite merge_sort_Permutation.
  - apply (Sorted_merge_sort ascending).
Qed.

(** Channels deliver in the reverse of the launch order. *)
Program Definition lifoRuntime : GoRuntime := {|
  received l := reverse l;
  sort_Sort l := merge_sort ascending l
|}.
Next Obligation. intros l. apply reverse_Permutation. Qed.
Next Obligation. intros l. apply merge_sort_Permutation. Qed.
Next Obligation.
  intros l Hnan. apply Sorted_ascending_strongly.
  - by rewrite merge_sort_Permutation.
  - apply (Sorted_merge_sort ascending).
Qed.

(** A telemetry service that answers from a table: a listed host gets
    status 200 and one series with one sample (no sample when the value is
    not a JSON number), any other host gets status 500. *)
Definition tableAnswer (table : list (string * F64.t)) (q : Query)
    : error + Response :=
  match List.find (fun hv => String.eqb (q_filter (hostQuery hv.1)) (q_filter q)) table with
  | Some (_, v) =>
      inr (mkResponse 200 "200 OK"
             (inr (if F64.json_number v then [[v]] else [])))
  | None =>
      inr (mkResponse 500 "500 Internal Server Error"
             (inl (foreignError "unexpected end of JSON input")))
  end.

Program Definition tableAPI (table : list (string * F64.t)) : SysdigAPI := {|
  GetData _ q := tableAnswer table q
|}.
Next Obligation.
  intros table sent q r data. simpl. unfold tableAnswer.
  destruct (List.find _ table) as [[h v]|]; intros Hr Hb;
    injection Hr as <-; simpl in Hb; [|done].
  injection Hb as <-. destruct (F64.json_number v) eqn:E; repeat constructor.
  done.
Qed.

(** Telemetry tables and states used in the examples. *)
Definition n1n2API : SysdigAPI :=
  tableAPI [("n1", F64.of_Z 10); ("n2", F64.of_Z 20)].

Definition abAPI : SysdigAPI :=
  tableAPI [("a", F64.of_Z 5); ("b", F64.of_Z 7)].

Definition nodeABAPI : SysdigAPI :=
  tableAPI [("nodeA", F64.of_Z 10); ("nodeB", F64.of_Z 20)].

Definition minusOneAPI : SysdigAPI := tableAPI [("n1", F64.of_Z (-1))].

Definition zeroAPI : SysdigAPI := tableAPI [("n1", F64.of_Z 0)].

(** The state after [nodesAvailable] has listed the single ready node "b"
    and [getBestNodeByMetrics] has then ranked the list ["a"]. *)
Definition staleWorld : World :=
  let listed :=
    (nodesAvailable ([mkKubeNode "b" [mkCondition "Ready" "True"]], None)
       emptyWorld).2 in
  (@getBestNodeByMetrics abAPI fifoRuntime true ["a"] listed).2.

(** The state after [getBestNodeByMetrics] has ranked ["n1"] and
    [nodesAvailable] has then listed a cluster without ready nodes. *)
Definition noReadyNodesWorld : World :=
  let ranked := (@getBestNodeByMetrics n1n2API fifoRuntime false ["n1"] emptyWorld).2 in
  (nodesAvailable ([], None) ranked).2.

(** ** The ranking pass *)

Section Ranking.
Context `{!SysdigAPI} `{!GoRuntime}.
Variable sysdigMetricLower : bool.

Abbreviation getBestNodeByMetrics := (getBestNodeByMetrics sysdigMetricLower).

(** [getMetrics] sends exactly one request and touches nothing else. *)
Lemma getMetrics_world hostname w :
  (getMetrics hostname w).2 = send (hostQuery hostname) w.
Proof.
  unfold getMetrics. destruct (GetData _ _) as [e|r]; [done|].
  destruct (negb _); [done|]. destruct (Body r) as [e|[|[|v ?] ?]]; done.
Qed.

Lemma getMetrics_json hostname w v w' :
  getMetrics hostname w = ((v, None), w') -> F64.json_number v = true.
Proof.
  unfold getMetrics. destruct (GetData _ _) as [e|r] eqn:Hr; [done|].
  destruct (negb _); [done|].
  destruct (Body r) as [e|[|[|x ?] ?]] eqn:Hb; try done.
  intros [= <- _]. pose proof (GetData_json _ _ _ _ Hr Hb) as Hj.
  apply Forall_cons in Hj as [Hj _]. by apply Forall_cons in Hj as [Hj _].
Qed.

(** The workers send one request per input name, in launch order, and
    leave the cache and the log alone. *)
Lemma launch_world nodes w :
  (launch nodes w).2 =
  mkWorld (cachedNodes w) (bestCachedNode w)
    (telemetry w ++ map (fun n => hostQuery (nodeNameLittle n)) nodes)
    (logged w).
Proof.
  revert w. induction nodes as [|n nodes IH]; intros w; simpl.
  - rewrite app_nil_r. by destruct w.
  - pose proof (getMetrics_world (nodeNameLittle n) w) as Hw.
    destruct (getMetrics (nodeNameLittle n) w) as [[v e] w1]. simpl in Hw.
    specialize (IH w1).
    destruct (launch nodes w1) as [[stats errors] w2]. simpl in IH.
    assert (w2 = mkWorld (cachedNodes w) (bestCachedNode w)
      (telemetry w ++ hostQuery (nodeNameLittle n)
         :: map (fun n => hostQuery (nodeNameLittle n)) nodes) (logged w)) as ->.
    { rewrite IH, Hw. simpl. by rewrite <- app_assoc. }
    by destruct e.
Qed.

(** Every node sent on [nodeStatsChannel] carries an input name, no error
    and a JSON number. *)
Lemma launch_stats nodes w :
  Forall (fun n => name n ∈ nodes /\ err n = None /\
                   F64.json_number (metric n) = true) (launch nodes w).1.1.
Proof.
  revert w. induction nodes as [|n nodes IH]; intros w; simpl; [constructor|].
  destruct (getMetrics (nodeNameLittle n) w) as [[v e] w1] eqn:Hm.
  specialize (IH w1). destruct (launch nodes w1) as [[stats errors] w2].
  simpl in IH.
  assert (Forall (fun m => name m ∈ n :: nodes /\ err m = None /\
                   F64.json_number (metric m) = true) stats) as Hst.
  { eapply Forall_impl; [exact IH|]. intros m (? & ? & ?).
    split; [by right | done]. }
  destruct e as [e|]; simpl; [done|].
  constructor; [|done]. simpl. split; [by left|]. split; [done|].
  by eapply getMetrics_json.
Qed.

Lemma logErrors_world errors w :
  cachedNodes (logErrors errors w) = cachedNodes w /\
  bestCachedNode (logErrors errors w) = bestCachedNode w /\
  telemetry (logErrors errors w) = telemetry w.
Proof.
  unfold logErrors. revert w.
  induction errors as [|n errors IH]; intros w; simpl; [done|].
  destruct (IH (match err n with
                | Some e => log_Println (LogRetrieving (name n) e) w
                | None => w
                end)) as (-> & -> & ->).
  by destruct (err n).
Qed.

(** [bestNodeFromList] on the empty list leaves the result at its zero
    value. *)
Lemma bestNodeFromList_nil :
  bestNodeFromList sysdigMetricLower [] = zeroNode.
Proof.
  unfold bestNodeFromList.
  pose proof (sort_Sort_perm []) as Hp. apply Permutation_nil_r in Hp.
  by rewrite Hp.
Qed.

(** On a non-empty list of comparable nodes it returns a member of the
    list that is least (lower is better) or greatest (otherwise). *)
Lemma bestNodeFromList_extremal (l : NodeList) :
  l <> [] ->
  Forall (fun n => F64.is_nan (metric n) = false) l ->
  let best := bestNodeFromList sysdigMetricLower l in
  best ∈ l /\
  forall m, m ∈ l ->
    if sysdigMetricLower then SFleb (metric best) (metric m) = true
    else SFleb (metric m) (metric best) = true.
Proof.
  intros Hne Hnan. unfold bestNodeFromList.
  pose proof (sort_Sort_perm l) as Hp.
  pose proof (sort_Sort_sorted l Hnan) as Hs.
  assert (Forall (fun n => F64.is_nan (metric n) = false) (sort_Sort l)) as Hn'
    by by rewrite Hp.
  set (best := if (0 <? _)%nat then _ else _).
  enough (best ∈ sort_Sort l /\
          forall m, m ∈ sort_Sort l ->
            if sysdigMetricLower then SFleb (metric best) (metric m) = true
            else SFleb (metric m) (metric best) = true) as [Hin Hext].
  { split; [by rewrite <- Hp|]. intros m Hm. apply Hext. by rewrite Hp. }
  subst best. clear Hnan.
  destruct (sort_Sort l) as [|x s] eqn:Es.
  { apply Permutation_nil_l in Hp. by subst. }
  clear Hp Hne Es l. simpl length.
  change (0 <? S (length s))%nat with true. cbv iota.
  destruct sysdigMetricLower.
  - simpl. split; [by left|]. intros m Hm.
    apply Forall_cons in Hn' as [Hx Hn'].
    apply elem_of_cons in Hm as [->|Hm]; [by apply F64Facts.leb_refl|].
    apply StronglySorted_inv in Hs as [_ Hs].
    rewrite Forall_forall in Hs, Hn'.
    apply F64Facts.not_ltb_leb; [done | by apply Hn' | by apply Hs].
  - replace (S (length s) - 1)%nat with (length s) by lia.
    destruct (exists_last (l := x :: s)) as (s' & y & Es'); [done|].
    assert (nth (length s) (x :: s) zeroNode = y) as ->.
    { rewrite Es'. replace (length s) with (length s').
      - by rewrite nth_middle.
      - apply (f_equal length) in Es'. rewrite length_app in Es'.
        simpl in Es'. lia. }
    rewrite Es' in Hs, Hn' |- *. split; [apply elem_of_app; right; by left|].
    apply Forall_app in Hn' as [Hs' Hy]. apply Forall_cons in Hy as [Hy _].
    intros m Hm. apply elem_of_app in Hm as [Hm|Hm].
    + rewrite Forall_forall in Hs'.
      apply F64Facts.not_ltb_leb; [by apply Hs' | done |].
      apply (StronglySorted_app_1_elem_of ascending s' [y] m y Hs Hm).
      by left.
    + apply elem_of_cons in Hm as [->|Hm]; [by apply F64Facts.leb_refl|].
      by apply not_elem_of_nil in Hm.
Qed.

(** What a pass that is not served from the cache returns and leaves
    behind. *)
Lemma getBestNodeByMetrics_fetching nodes w :
  nodes <> [] -> usingCache nodes w = None ->
  let r := getBestNodeByMetrics nodes w in
  r.1.1 = bestNodeFromList sysdigMetricLower (received (nodeStats nodes w)) /\
  r.1.2 = (if (String.eqb (name r.1.1) "" ||
               SFeqb (metric r.1.1) F64.minus_one)%bool
           then Some noNodeFound else None) /\
  cachedNodes r.2 = cachedNodes w /\
  bestCachedNode r.2 =
    match r.1.2 with
    | None => Some r.1.1
    | Some _ => bestCachedNode w
    end /\
  telemetry r.2 =
    (telemetry w ++ map (fun n => hostQuery (nodeNameLittle n)) nodes)%list.
Proof.
  intros Hne Hc. unfold getBestNodeByMetrics, nodeStats.
  destruct nodes as [|n nodes]; [done|]. simpl length. simpl Nat.eqb.
  cbv iota. rewrite Hc.
  pose proof (launch_world (n :: nodes) w) as Hw.
  destruct (launch (n :: nodes) w) as [[stats errors] w1]. simpl in Hw.
  destruct (logErrors_world (received errors) w1) as (Hl1 & Hl2 & Hl3).
  subst w1. simpl in Hl1, Hl2, Hl3. cbn zeta. simpl fst. simpl snd.
  set (best := bestNodeFromList sysdigMetricLower (received stats)) in *.
  destruct (String.eqb (name best) "" || SFeqb (metric best) F64.minus_one)%bool;
    simpl; by rewrite ?Hl1, ?Hl2, ?Hl3.
Qed.

Lemma nodeStats_names nodes w n : n ∈ nodeStats nodes w -> name n ∈ nodes.
Proof.
  intros Hn. pose proof (launch_stats nodes w) as Hs.
  rewrite Forall_forall in Hs. by apply Hs.
Qed.

Lemma nodeStats_not_nan nodes w :
  Forall (fun n => F64.is_nan (metric n) = false) (received (nodeStats nodes w)).
Proof.
  rewrite received_perm. eapply Forall_impl; [apply launch_stats|].
  intros n (_ & _ & Hj). by apply F64Facts.json_number_not_nan.
Qed.

Lemma nodeStats_nil_nodes w : nodeStats [] w = [].
Proof. done. Qed.

(** What a pass that is served from the cache returns and leaves behind:
    the cached node, one more log line, nothing else. *)
Lemma getBestNodeByMetrics_cached nodes w bestNode :
  nodes <> [] -> usingCache nodes w = Some bestNode ->
  getBestNodeByMetrics nodes w = ((bestNode, None), log_Println LogUsingCache w).
Proof.
  intros Hne Hc. unfold getBestNodeByMetrics.
  destruct nodes; [done|]. simpl. by rewrite Hc.
Qed.

Lemma usingCache_Some nodes w bestNode :
  usingCache nodes w = Some bestNode <->
  Data (cachedNodes w) = Some nodes /\ Data (bestCachedNode w) = Some bestNode.
Proof.
  unfold usingCache. destruct (Data (cachedNodes w)) as [l|].
  - case_decide as Hl.
    + subst l. by split; [|intros [_ ?]].
    + split; [done|]. intros [[= ?] _]. by destruct Hl.
  - by split; [|intros [? _]].
Qed.

(** The ready-node slot is not written by any call. *)
Lemma getBestNodeByMetrics_cachedNodes nodes w :
  cachedNodes (getBestNodeByMetrics nodes w).2 = cachedNodes w.
Proof.
  destruct (decide (nodes = [])) as [->|Hne]; [done|].
  destruct (usingCache nodes w) as [bestNode|] eqn:Hc.
  - by rewrite (getBestNodeByMetrics_cached nodes w bestNode).
  - by destruct (getBestNodeByMetrics_fetching nodes w Hne Hc) as (_ & _ & ? & _).
Qed.

(** After a call without error the best-node slot holds the node
    returned. *)
Lemma getBestNodeByMetrics_success nodes w :
  (getBestNodeByMetrics nodes w).1.2 = None ->
  nodes <> [] /\
  Data (bestCachedNode (getBestNodeByMetrics nodes w).2) =
    Some (getBestNodeByMetrics nodes w).1.1.
Proof.
  intros Hok. destruct (decide (nodes = [])) as [->|Hne]; [done|].
  split; [done|]. destruct (usingCache nodes w) as [bestNode|] eqn:Hc.
  - rewrite (getBestNodeByMetrics_cached nodes w bestNode) by done.
    by apply usingCache_Some in Hc as [_ Hb].
  - destruct (getBestNodeByMetrics_fetching nodes w Hne Hc)
      as (_ & _ & _ & Hbc & _).
    cbn zeta in Hbc. by rewrite Hbc, Hok.
Qed.

(** C1 (as amended). When a call is not served from the cache and at
    least one node's metric fetch succeeds in it, the [Node] that
    [getBestNodeByMetrics] returns is one of the successfully fetched nodes
    of that pass, its name is in the input list, and its metric is less
    than or equal to the metric of every successful node when lower is
    better, greater than or equal otherwise. *)
Theorem best_node_in_input_and_extremal nodes w :
  usingCache nodes w = None ->
  nodeStats nodes w <> [] ->
  let best := (getBestNodeByMetrics nodes w).1.1 in
  name best ∈ nodes /\
  best ∈ nodeStats nodes w /\
  forall m, m ∈ nodeStats nodes w ->
    if sysdigMetricLower then SFleb (metric best) (metric m) = true
    else SFleb (metric m) (metric best) = true.
Proof.
  intros Hc Hs.
  assert (nodes <> []) as Hne by (intros ->; by apply Hs).
  destruct (getBestNodeByMetrics_fetching nodes w Hne Hc) as (Hb & _).
  cbn zeta in *. rewrite Hb.
  destruct (bestNodeFromList_extremal (received (nodeStats nodes w)))
    as [Hin Hext].
  - intros Hr. apply Hs. apply Permutation_nil_r. by rewrite <- Hr, received_perm.
  - apply nodeStats_not_nan.
  - cbn zeta in Hin, Hext.
    set (best := bestNodeFromList _ _) in *. clearbody best.
    rewrite received_perm in Hin. split; [by eapply nodeStats_names|].
    split; [done|]. intros m Hm. apply Hext. by rewrite received_perm.
Qed.

(** C2 (as amended). [getBestNodeByMetrics] fails with [noNodeFound]
    exactly when the list is not empty, the call is not served from the
    cache, and no node was fetched successfully, or the selected node has
    the empty name, or the selected node's metric equals -1. The sentinel
    is the metric value -1 itself: a call that returns a node with a
    non-empty name and a metric other than -1 (zero or another negative
    value, say) does not fail. *)
Theorem noNodeFound_exactly nodes w :
  let r := getBestNodeByMetrics nodes w in
  let selected :=
    bestNodeFromList sysdigMetricLower (received (nodeStats nodes w)) in
  (r.1.2 = Some noNodeFound <->
   nodes <> [] /\ usingCache nodes w = None /\
   (nodeStats nodes w = [] \/ name selected = "" \/
    SFeqb (metric selected) F64.minus_one = true)) /\
  (name r.1.1 <> "" -> SFeqb (metric r.1.1) F64.minus_one = false ->
   r.1.2 = None).
Proof.
  cbn zeta. destruct (decide (nodes = [])) as [->|Hne].
  { split; [split; [done | by intros [? _]] | done]. }
  destruct (usingCache nodes w) as [bestNode|] eqn:Hc.
  { unfold getBestNodeByMetrics. destruct nodes; [done|]. simpl. rewrite Hc.
    simpl. split; [split; [done | by intros (_ & ? & _)] | done]. }
  destruct (getBestNodeByMetrics_fetching nodes w Hne Hc) as (Hb & He & _).
  cbn zeta in *. rewrite He. rewrite <- Hb. clear He.
  assert (nodeStats nodes w = [] -> name (getBestNodeByMetrics nodes w).1.1 = "")
    as Hnil.
  { intros Hs. rewrite Hb, Hs.
    pose proof (received_perm []) as Hp. apply Permutation_nil_r in Hp.
    by rewrite Hp, bestNodeFromList_nil. }
  set (best := (getBestNodeByMetrics nodes w).1.1) in *. clearbody best.
  destruct (String.eqb_spec (name best) "") as [Hn|Hn]; simpl.
  - split; [|done]. split; [intros _|done]. split_and!; auto.
  - destruct (SFeqb (metric best) F64.minus_one) eqn:Hm.
    + split; [|done]. split; [intros _|done]. split_and!; auto.
    + split; [|done]. split; [done|].
      intros (_ & _ & [Hs|[?|?]]); [by apply Hnil in Hs | done | done].
Qed.

(** C3 (as amended). For every non-empty input list: if the cached
    ready-node list is there and equals the input list, and a cached best
    node is there, [getBestNodeByMetrics] returns that node without error,
    sends no telemetry request and leaves both cache slots as they are. *)
Theorem cache_short_circuit nodes w bestNode :
  nodes <> [] ->
  Data (cachedNodes w) = Some nodes ->
  Data (bestCachedNode w) = Some bestNode ->
  let r := getBestNodeByMetrics nodes w in
  r.1 = (bestNode, None) /\
  telemetry r.2 = telemetry w /\
  cachedNodes r.2 = cachedNodes w /\
  bestCachedNode r.2 = bestCachedNode w.
Proof.
  intros Hne Hn Hb. cbn zeta.
  by rewrite (getBestNodeByMetrics_cached nodes w bestNode)
    by (done || by apply usingCache_Some).
Qed.

(** C5. On the empty list [getBestNodeByMetrics] fails with
    [emptyNodeList] and returns the state it was given: no telemetry
    request is sent and both cache slots are as before. *)
Theorem empty_list_fails w :
  getBestNodeByMetrics [] w = ((zeroNode, Some emptyNodeList), w).
Proof. reflexivity. Qed.

(** C6. A call that returns an error ([emptyNodeList] or [noNodeFound],
    there is no other) leaves the cached best node as it was; after a call
    that succeeds the cached best node is the node returned. *)
Theorem best_slot_follows_success nodes w :
  let r := getBestNodeByMetrics nodes w in
  (forall e, r.1.2 = Some e ->
     (e = emptyNodeList \/ e = noNodeFound) /\
     bestCachedNode r.2 = bestCachedNode w) /\
  (r.1.2 = None -> Data (bestCachedNode r.2) = Some r.1.1).
Proof.
  cbn zeta. split; [|by apply getBestNodeByMetrics_success].
  intros e He. destruct (decide (nodes = [])) as [->|Hne].
  { injection He as <-. by (split; [left|]). }
  destruct (usingCache nodes w) as [bestNode|] eqn:Hc.
  { by rewrite (getBestNodeByMetrics_cached nodes w bestNode) in He. }
  destruct (getBestNodeByMetrics_fetching nodes w Hne Hc)
    as (_ & He' & _ & Hbc & _).
  cbn zeta in *. rewrite Hbc, He. split; [right|done].
  rewrite He in He'. destruct (_ || _)%bool; [|done]. by injection He' as ->.
Qed.

(** C4 (as amended). When the cached ready-node list equals the input list
    and the first of two consecutive calls with that list succeeds, the
    second call returns the same node and sends no telemetry request; the
    first call sends one request per node of the list (each node's request
    once, in whatever order) when the best-node slot was empty, and none
    when it was filled. *)
Theorem consecutive_calls_query_once nodes w :
  Data (cachedNodes w) = Some nodes ->
  let r1 := getBestNodeByMetrics nodes w in
  let r2 := getBestNodeByMetrics nodes r1.2 in
  r1.1.2 = None ->
  r2.1 = r1.1 /\
  telemetry r2.2 = telemetry r1.2 /\
  (Data (bestCachedNode w) = None ->
   exists sent,
     telemetry r1.2 = (telemetry w ++ sent)%list /\
     sent ≡ₚ map (fun n => hostQuery (nodeNameLittle n)) nodes) /\
  (is_Some (Data (bestCachedNode w)) -> telemetry r1.2 = telemetry w).
Proof.
  intros Hn r1 r2 Hok.
  destruct (getBestNodeByMetrics_success nodes w Hok) as [Hne Hb].
  fold r1 in Hb.
  pose proof (getBestNodeByMetrics_cachedNodes nodes w) as Hcn. fold r1 in Hcn.
  assert (usingCache nodes r1.2 = Some r1.1.1) as Hc2.
  { apply usingCache_Some. by rewrite Hcn. }
  pose proof (getBestNodeByMetrics_cached nodes r1.2 r1.1.1 Hne Hc2) as H2.
  fold r2 in H2. rewrite H2. simpl. split_and!.
  - destruct r1 as [[? ?] ?]. simpl in *. by subst.
  - done.
  - intros Hnone.
    assert (usingCache nodes w = None) as Hc.
    { unfold usingCache. rewrite Hn. by case_decide. }
    exists (map (fun n => hostQuery (nodeNameLittle n)) nodes). split; [|done].
    by destruct (getBestNodeByMetrics_fetching nodes w Hne Hc)
      as (_ & _ & _ & _ & ?).
  - intros [b Hb'].
    assert (usingCache nodes w = Some b) as Hc by by apply usingCache_Some.
    subst r1. by rewrite (getBestNodeByMetrics_cached nodes w b).
Qed.

End Ranking.

(** ** The two cache slots across operations *)

(** C9. [getBestNodeByMetrics] reads the ready-node slot and never writes
    it, whatever the input and the outcome; so a successful pass over a list
    that differs from the cached one does not record the list it ranked.
    The slot is written by [nodesAvailable], which fills it when it is
    empty. *)
Theorem ranking_never_writes_cachedNodes `{!SysdigAPI} `{!GoRuntime}
    (sysdigMetricLower : bool) nodes w :
  let r := getBestNodeByMetrics sysdigMetricLower nodes w in
  cachedNodes r.2 = cachedNodes w /\
  (r.1.2 = None -> Data (cachedNodes w) <> Some nodes ->
   Data (cachedNodes r.2) <> Some nodes) /\
  (forall listNodes, Data (cachedNodes w) = None ->
   Data (cachedNodes (nodesAvailable listNodes w).2) =
     Some (nodesAvailable listNodes w).1).
Proof.
  cbn zeta. split_and!.
  - apply getBestNodeByMetrics_cachedNodes.
  - intros _. by rewrite getBestNodeByMetrics_cachedNodes.
  - intros [ns e] Hn. unfold nodesAvailable. rewrite Hn. by destruct e.
Qed.

(** What [nodesAvailable] does when the slot is empty and the listing
    fails: the error is logged, the names gathered from what the listing
    handed over are returned, and that result is stored in the slot. *)
Lemma nodesAvailable_listing_failed nodes e w :
  Data (cachedNodes w) = None ->
  let r := nodesAvailable (nodes, Some e) w in
  r.1 = readyNames nodes /\
  logged r.2 = (logged w ++ [LogError e])%list /\
  Data (cachedNodes r.2) = Some (readyNames nodes).
Proof. intros Hn. unfold nodesAvailable. by rewrite Hn. Qed.

(** C7. The code at the failing input: the slot is empty and the listing
    fails with nothing listed. [nodesAvailable] logs the error and returns
    the empty list, and stores that empty list in the slot, so that the
    next call answers from the slot and does not list again. *)
Theorem failed_listing_is_cached :
  let failure := foreignError "connection refused" in
  let r := nodesAvailable ([], Some failure) emptyWorld in
  r.1 = [] /\
  logged r.2 = [LogError failure] /\
  Data (cachedNodes r.2) = Some [] /\
  (nodesAvailable
     ([mkKubeNode "nodeA" [mkCondition "Ready" "True"]], None) r.2).1 = [].
Proof. by vm_compute. Qed.

(** ** The binding payload *)

Section BinderFacts.
Context {Payload HTTPResponse : Type}.
Variable json_Marshal : gmap string (gmap string string) -> Payload * option error.
Variable CreateNamespacedBinding :
  string -> Payload -> option HTTPResponse * option error.

(** C10. For every pod name, node name and namespace, [scheduler] marshals
    a body with exactly the objects [target] and [metadata]: [target] has
    kind "Node", apiVersion "v1", the node name and the namespace,
    [metadata] has the pod name and the same namespace; the binding is
    created in that namespace with the marshalled body (or the marshalling
    error is returned). The namespace is the one given, or "default" when
    the one given is empty. *)
Theorem scheduler_payload (podName nodeName namespace : string) :
  let ns := if String.eqb namespace "" then "default" else namespace in
  let body := bindingBody podName nodeName ns in
  (ns = if decide (namespace = "") then "default" else namespace) /\
  dom body = {[ "target"; "metadata" ]} /\
  (body !! "target" ≫= (.!! "kind")) = Some "Node" /\
  (body !! "target" ≫= (.!! "apiVersion")) = Some "v1" /\
  (body !! "target" ≫= (.!! "name")) = Some nodeName /\
  (body !! "target" ≫= (.!! "namespace")) = Some ns /\
  (dom <$> body !! "target") =
    Some ({[ "kind"; "apiVersion"; "name"; "namespace" ]} : gset string) /\
  (body !! "metadata" ≫= (.!! "name")) = Some podName /\
  (body !! "metadata" ≫= (.!! "namespace")) = Some ns /\
  (dom <$> body !! "metadata") = Some ({[ "name"; "namespace" ]} : gset string) /\
  scheduler json_Marshal CreateNamespacedBinding podName nodeName namespace =
    match json_Marshal body with
    | (_, Some e) => (None, Some e)
    | (data, None) => CreateNamespacedBinding ns data
    end.
Proof.
  cbn zeta. split_and!.
  - destruct (String.eqb_spec namespace ""); by case_decide.
  - unfold bindingBody. rewrite !dom_insert_L, dom_singleton_L. set_solver.
  - done.
  - done.
  - done.
  - done.
  - unfold bindingBody. simplify_map_eq. apply (f_equal Some).
    rewrite !dom_insert_L, dom_singleton_L. set_solver.
  - done.
  - done.
  - unfold bindingBody. simplify_map_eq. apply (f_equal Some).
    rewrite !dom_insert_L, dom_singleton_L. set_solver.
  - unfold scheduler. by destruct (json_Marshal _) as [data [e|]].
Qed.

End BinderFacts.

(** ** The code on concrete inputs

    Runs of the code that the statements above do not cover, and runs that
    they do. *)

(** C1, counterexample. In [staleWorld] the input list ["b"] is not empty
    and the fetch for "b" succeeds (with 7), yet the call returns, without
    error, the node "a" cached by the earlier pass, whose name is not in
    the input list. *)
Lemma cached_node_outside_input :
  let r := @getBestNodeByMetrics abAPI fifoRuntime true ["b"] staleWorld in
  (@getMetrics abAPI (nodeNameLittle "b") staleWorld).1 = (F64.of_Z 7, None) /\
  r.1 = (mkNode "a" (F64.of_Z 5) None, None) /\
  name r.1.1 ∉ ["b"].
Proof.
  cbn zeta. split_and!; [by vm_compute | by vm_compute |].
  intros Hin. apply list_elem_of_singleton in Hin. vm_compute in Hin.
  discriminate.
Qed.

(** C1 at an instance: two nodes with metrics 10 and 20, higher is better,
    channels delivering in reverse order, nothing cached. *)
Lemma best_node_in_input_and_extremal_witness :
  let nodes := ["n1.example"; "n2.example"] in
  let best := (@getBestNodeByMetrics n1n2API lifoRuntime false nodes emptyWorld).1.1 in
  @usingCache nodes emptyWorld = None /\
  @nodeStats n1n2API nodes emptyWorld <> [] /\
  name best ∈ nodes /\
  best ∈ @nodeStats n1n2API nodes emptyWorld /\
  forall m, m ∈ @nodeStats n1n2API nodes emptyWorld ->
    SFleb (metric m) (metric best) = true.
Proof.
  cbn zeta. split; [reflexivity|]. split; [by vm_compute|].
  apply (@best_node_in_input_and_extremal n1n2API lifoRuntime false
           ["n1.example"; "n2.example"] emptyWorld); [reflexivity | by vm_compute].
Defined.

(** C2, counterexample. The only node succeeds with the finite metric -1
    and is selected, and the call fails with [noNodeFound]. *)
Lemma minus_one_metric_is_refused :
  let r := @getBestNodeByMetrics minusOneAPI fifoRuntime true ["n1"] emptyWorld in
  (@getMetrics minusOneAPI (nodeNameLittle "n1") emptyWorld).1 =
    (F64.of_Z (-1), None) /\
  F64.json_number (F64.of_Z (-1)) = true /\
  r.1 = (mkNode "n1" (F64.of_Z (-1)) None, Some noNodeFound).
Proof. by vm_compute. Qed.

(** C2 at an instance: the only node has metric 0; the call does not
    fail. *)
Lemma noNodeFound_exactly_witness :
  let r := @getBestNodeByMetrics zeroAPI fifoRuntime true ["n1"] emptyWorld in
  name r.1.1 <> "" /\
  SFeqb (metric r.1.1) F64.minus_one = false /\
  r.1.2 = None.
Proof.
  cbn zeta. split; [by vm_compute|]. split; [by vm_compute|].
  apply (proj2 (@noNodeFound_exactly zeroAPI fifoRuntime true ["n1"] emptyWorld));
    by vm_compute.
Defined.

(** C3, counterexample. In [noReadyNodesWorld] the cached ready-node list
    is there and equals the input list [[]] element by element, and a
    cached best node is there; the call fails with [emptyNodeList] instead
    of returning that node. *)
Lemma empty_list_not_served_from_cache :
  let cachedBest := mkNode "n1" (F64.of_Z 10) None in
  let r := @getBestNodeByMetrics n1n2API fifoRuntime false [] noReadyNodesWorld in
  Data (cachedNodes noReadyNodesWorld) = Some [] /\
  Data (bestCachedNode noReadyNodesWorld) = Some cachedBest /\
  r.1 = (zeroNode, Some emptyNodeList) /\
  r.1 <> (cachedBest, None).
Proof. by vm_compute. Qed.

(** C3 at an instance: both slots filled, the cached list equal to the
    input. *)
Lemma cache_short_circuit_witness :
  let nodes := ["n1.example"; "n2.example"] in
  let bestNode := mkNode "n2.example" (F64.of_Z 20) None in
  let w := mkWorld (Some nodes) (Some bestNode) [] [] in
  let r := @getBestNodeByMetrics n1n2API fifoRuntime false nodes w in
  nodes <> [] /\
  Data (cachedNodes w) = Some nodes /\
  Data (bestCachedNode w) = Some bestNode /\
  r.1 = (bestNode, None) /\
  telemetry r.2 = telemetry w /\
  cachedNodes r.2 = cachedNodes w /\
  bestCachedNode r.2 = bestCachedNode w.
Proof.
  cbn zeta. split; [done|]. split; [reflexivity|]. split; [reflexivity|].
  apply (@cache_short_circuit n1n2API fifoRuntime false); [done | reflexivity..].
Defined.

(** C4, counterexample. From the empty state the first call with
    ["nodeA"; "nodeB"] succeeds and sends two requests; the second call
    with the same list sends two more, four in total. *)
Lemma second_call_queries_again :
  let nodes := ["nodeA"; "nodeB"] in
  let r1 := @getBestNodeByMetrics nodeABAPI fifoRuntime false nodes emptyWorld in
  let r2 := @getBestNodeByMetrics nodeABAPI fifoRuntime false nodes r1.2 in
  r1.1.2 = None /\
  length (telemetry r1.2) = 2%nat /\
  r2.1.2 = None /\
  length (telemetry r2.2) = 4%nat.
Proof. by vm_compute. Qed.

(** C4 at an instance: the same two calls as above, from the state in
    which [nodesAvailable] has cached the list. *)
Lemma consecutive_calls_query_once_witness :
  let nodes := ["nodeA"; "nodeB"] in
  let w := mkWorld (Some nodes) None [] [] in
  let r1 := @getBestNodeByMetrics nodeABAPI fifoRuntime false nodes w in
  let r2 := @getBestNodeByMetrics nodeABAPI fifoRuntime false nodes r1.2 in
  Data (cachedNodes w) = Some nodes /\
  r1.1.2 = None /\
  r2.1 = r1.1 /\
  telemetry r2.2 = telemetry r1.2 /\
  (Data (bestCachedNode w) = None ->
   exists sent,
     telemetry r1.2 = (telemetry w ++ sent)%list /\
     sent ≡ₚ map (fun n => hostQuery (nodeNameLittle n)) nodes) /\
  (is_Some (Data (bestCachedNode w)) -> telemetry r1.2 = telemetry w).
Proof.
  cbn zeta. split; [reflexivity|]. split; [by vm_compute|].
  apply (@consecutive_calls_query_once nodeABAPI fifoRuntime false);
    [reflexivity | by vm_compute].
Defined.

(** C6 at two instances. After a pass over ["n1"] the slot holds the node
    n1 with metric 10. A pass over ["n2"] then succeeds and replaces it by
    the node it returns, n2 with metric 20; a pass over ["x"], whose fetch
    fails, returns [noNodeFound] and leaves n1 in the slot. *)
Lemma best_slot_follows_success_witness :
  let w := (@getBestNodeByMetrics n1n2API fifoRuntime false ["n1"] emptyWorld).2 in
  let ok := @getBestNodeByMetrics n1n2API fifoRuntime false ["n2"] w in
  let ko := @getBestNodeByMetrics n1n2API fifoRuntime false ["x"] w in
  Data (bestCachedNode w) = Some (mkNode "n1" (F64.of_Z 10) None) /\
  (ok.1.2 = None /\
   ok.1.1 = mkNode "n2" (F64.of_Z 20) None /\
   Data (bestCachedNode ok.2) = Some ok.1.1 /\
   bestCachedNode ok.2 <> bestCachedNode w) /\
  (ko.1.2 = Some noNodeFound /\
   (noNodeFound = emptyNodeList \/ noNodeFound = noNodeFound) /\
   bestCachedNode ko.2 = bestCachedNode w).
Proof.
  cbn zeta. split; [by vm_compute|]. split.
  - split; [by vm_compute|]. split; [by vm_compute|]. split; [|by vm_compute].
    apply (proj2 (@best_slot_follows_success n1n2API fifoRuntime false ["n2"] _)).
    by vm_compute.
  - split; [by vm_compute|].
    apply (proj1 (@best_slot_follows_success n1n2API fifoRuntime false ["x"] _)).
    by vm_compute.
Defined.

(** C9 at an instance: a successful pass from the empty state leaves the
    ready-node slot empty. *)
Lemma ranking_never_writes_cachedNodes_witness :
  let nodes := ["nodeA"; "nodeB"] in
  let r := @getBestNodeByMetrics nodeABAPI fifoRuntime false nodes emptyWorld in
  r.1.2 = None /\
  Data (cachedNodes emptyWorld) <> Some nodes /\
  Data (cachedNodes r.2) <> Some nodes.
Proof.
  cbn zeta. split; [by vm_compute|]. split; [done|].
  apply (proj1 (proj2 (@ranking_never_writes_cachedNodes nodeABAPI fifoRuntime
                         false ["nodeA"; "nodeB"] emptyWorld)));
    [by vm_compute | done].
Defined.

(** * Further properties of methods.go *)

(** ** The short host name *)

(** [strings.Join(parts, ".")]. *)
Fixpoint strings_Join_dot (parts : list string) : string :=
  match parts with
  | [] => EmptyString
  | [part] => part
  | part :: rest => part ++ "." ++ strings_Join_dot rest
  end.

(** [strings.Contains(s, ".")] and [strings.Count(s, ".")]. *)
Fixpoint contains_dot (s : string) : bool :=
  match s with
  | EmptyString => false
  | String c rest => Ascii.eqb c "." || contains_dot rest
  end.

Fixpoint count_dots (s : string) : nat :=
  match s with
  | EmptyString => 0
  | String c rest => (if Ascii.eqb c "." then 1 else 0) + count_dots rest
  end.

Lemma strings_Split_dot_cons s :
  exists part parts, strings_Split_dot s = part :: parts.
Proof.
  destruct s as [|c s]; simpl; [by eauto|].
  destruct (Ascii.eqb c "."); [by eauto|].
  destruct (strings_Split_dot s); by eauto.
Qed.

Lemma nodeNameLittle_String c s :
  nodeNameLittle (String c s) =
  if Ascii.eqb c "." then EmptyString else String c (nodeNameLittle s).
Proof.
  unfold nodeNameLittle. simpl. destruct (Ascii.eqb c "."); [done|].
  by destruct (strings_Split_dot_cons s) as (p & ps & ->).
Qed.

(** X1. The split of a node name at its dots is never empty, so that
    [split[0]] is always in range; it has one part more than the name has
    dots, no part holds a dot, and joining the parts with dots gives the
    name back. *)
Theorem strings_Split_dot_spec (s : string) :
  strings_Split_dot s <> [] /\
  length (strings_Split_dot s) = S (count_dots s) /\
  Forall (fun part => contains_dot part = false) (strings_Split_dot s) /\
  strings_Join_dot (strings_Split_dot s) = s.
Proof.
  induction s as [|c s (Hne & Hlen & Hdot & Hjoin)]; simpl.
  { split_and!; [done | done | by repeat constructor | done]. }
  destruct (Ascii.eqb c ".") eqn:Hc.
  - apply Ascii.eqb_eq in Hc as ->. split_and!; [done | | | ].
    + simpl. by rewrite Hlen.
    + by constructor.
    + destruct (strings_Split_dot s) as [|p ps]; [done|].
      change (strings_Join_dot ("" :: p :: ps))
        with ("" ++ "." ++ strings_Join_dot (p :: ps)).
      by rewrite Hjoin.
  - destruct (strings_Split_dot s) as [|p ps]; [done|].
    apply Forall_cons in Hdot as [Hp Hps]. split_and!; [done | | | ].
    + simpl in *. by rewrite Hlen.
    + constructor; [|done]. simpl. by rewrite Hc, Hp.
    + destruct ps as [|p' ps]; [simpl in *; by rewrite Hjoin|].
      change (strings_Join_dot (String c p :: p' :: ps))
        with (String c (p ++ "." ++ strings_Join_dot (p' :: ps))).
      by rewrite <- Hjoin.
Qed.

(** X2. The host asked for is the node name up to its first dot: it holds
    no dot; a name without a dot is asked for as it is, and a name with a
    dot is that host, a dot, and a rest that the request ignores. *)
Theorem nodeNameLittle_spec (nodeName : string) :
  contains_dot (nodeNameLittle nodeName) = false /\
  if contains_dot nodeName
  then exists rest, nodeName = nodeNameLittle nodeName ++ "." ++ rest
  else nodeNameLittle nodeName = nodeName.
Proof.
  induction nodeName as [|c s [Hdot Hs]]; [done|].
  rewrite nodeNameLittle_String. simpl.
  destruct (Ascii.eqb c ".") eqn:Hc; simpl.
  - apply Ascii.eqb_eq in Hc as ->. split; [done|]. by exists s.
  - rewrite Hc. split; [done|]. destruct (contains_dot s).
    + destruct Hs as [rest Hs]. exists rest. by rewrite Hs at 1.
    + by rewrite Hs.
Qed.

(** Names that agree up to the first dot are asked for with one and the
    same request. *)
Lemma nodeNameLittle_app (host rest : string) :
  contains_dot host = false -> nodeNameLittle (host ++ "." ++ rest) = host.
Proof.
  induction host as [|c host IH]; simpl; [done|].
  intros [Hc Hh]%orb_false_elim.
  change (String c host ++ "." ++ rest) with (String c (host ++ "." ++ rest)).
  by rewrite nodeNameLittle_String, Hc, IH.
Qed.

(** ** getMetrics *)

Section MetricFetch.
Context `{!SysdigAPI}.

(** X3. [getMetrics] returns a value without error exactly when the
    service answers with status 200 and a body that decodes to a first
    series with a first sample, and the value is that sample: later samples
    and later series are not looked at. In every case it sends the one
    request for the host, over the last 60 seconds, and leaves the cache and
    the log alone; with an error the value returned is 0. *)
Theorem getMetrics_value hostname w v :
  ((getMetrics hostname w).1 = (v, None) <->
   exists r samples series,
     GetData (telemetry w) (hostQuery hostname) = inr r /\
     StatusCode r = 200%Z /\
     Body r = inr ((v :: samples) :: series)) /\
  ((getMetrics hostname w).1.2 <> None -> (getMetrics hostname w).1.1 = F64.zero) /\
  (getMetrics hostname w).2 =
    mkWorld (cachedNodes w) (bestCachedNode w)
      (telemetry w ++
       [mkQuery (-60) 0 60 ("host.hostName = '" ++ hostname ++ "'") "host"])
      (logged w).
Proof.
  unfold getMetrics, send, hostQuery.
  set (q := mkQuery _ _ _ _ _).
  destruct (GetData (telemetry w) q) as [e|r] eqn:Hr; simpl.
  { split_and!; [|done..]. split; [done|]. by intros (? & ? & ? & ? & _). }
  destruct (StatusCode r =? 200)%Z eqn:Hs; simpl.
  - apply Z.eqb_eq in Hs.
    destruct (Body r) as [e|[|[|x samples] series]] eqn:Hb; simpl;
      (split_and!; [|done..]); split; try done;
      try (intros (r' & ? & ? & [= <-] & _ & Hb'); rewrite Hb in Hb'; done).
    + intros [= <-]. by exists r, samples, series.
    + intros (r' & ? & ? & [= <-] & _ & Hb'). rewrite Hb in Hb'.
      by injection Hb' as ->.
  - apply Z.eqb_neq in Hs. split_and!; [|done..]. split; [done|].
    by intros (r' & ? & ? & [= <-] & ? & _).
Qed.

End MetricFetch.

(** ** One pass: workers, log and requests *)

(** The lines [getBestNodeByMetrics] logs for the nodes received on
    [nodeStatsErrorsChannel]. *)
Definition retrievingLines (errors : list Node) : list LogLine :=
  flat_map
    (fun node =>
       match err node with
       | Some e => [LogRetrieving (name node) e]
       | None => []
       end)
    errors.

Lemma logErrors_logged errors w :
  logged (logErrors errors w) = (logged w ++ retrievingLines errors)%list.
Proof.
  unfold logErrors. revert w.
  induction errors as [|n errors IH]; intros w; simpl.
  - by rewrite app_nil_r.
  - rewrite IH. destruct (err n); simpl; [|done]. by rewrite <- app_assoc.
Qed.

Lemma SFleb_antisym_eqb (x y : F64.t) :
  SFleb x y = true -> SFleb y x = true -> SFeqb x y = true.
Proof. destruct x, y; F64Facts.crush_order. Qed.

Section Pass.
Context `{!SysdigAPI} `{!GoRuntime}.
Variable sysdigMetricLower : bool.

Abbreviation getBestNodeByMetrics := (getBestNodeByMetrics sysdigMetricLower).

(** The workers sort the input names into the two channels. *)
Lemma launch_names nodes w :
  (map name (launch nodes w).1.1 ++ map name (launch nodes w).1.2)%list ≡ₚ nodes.
Proof.
  revert w. induction nodes as [|n nodes IH]; intros w; simpl; [done|].
  destruct (getMetrics (nodeNameLittle n) w) as [[v e] w1].
  specialize (IH w1). destruct (launch nodes w1) as [[stats errors] w2].
  simpl in IH. destruct e as [e|]; simpl.
  - by rewrite <- Permutation_middle, IH.
  - by rewrite IH.
Qed.

Lemma launch_errors nodes w :
  Forall (fun n => is_Some (err n) /\ metric n = F64.zero) (launch nodes w).1.2.
Proof.
  revert w. induction nodes as [|n nodes IH]; intros w; simpl; [constructor|].
  destruct (getMetrics (nodeNameLittle n) w) as [[v e] w1].
  specialize (IH w1). destruct (launch nodes w1) as [[stats errors] w2].
  simpl in IH. destruct e as [e|]; simpl; [|done].
  constructor; [|done]. by split; [eexists|].
Qed.

Lemma retrievingLines_length errors :
  Forall (fun n => is_Some (err n) /\ metric n = F64.zero) errors ->
  length (retrievingLines errors) = length errors.
Proof.
  induction 1 as [|n errors [[e He] _] _ IH]; simpl; [done|].
  rewrite He. simpl. by rewrite IH.
Qed.

Lemma getBestNodeByMetrics_fetching_logged nodes w :
  nodes <> [] -> usingCache nodes w = None ->
  logged (getBestNodeByMetrics nodes w).2 =
    (logged w ++ retrievingLines (received (launch nodes w).1.2))%list.
Proof.
  intros Hne Hc. unfold getBestNodeByMetrics.
  destruct nodes as [|n nodes]; [done|]. simpl length. simpl Nat.eqb.
  cbv iota. rewrite Hc.
  pose proof (launch_world (n :: nodes) w) as Hw.
  destruct (launch (n :: nodes) w) as [[stats errors] w1]. simpl in Hw.
  cbn zeta. simpl fst. simpl snd.
  assert (logged (logErrors (received errors) w1) =
          (logged w ++ retrievingLines (received errors))%list) as Hl.
  { rewrite logErrors_logged. by subst w1. }
  by destruct (_ || _)%bool.
Qed.

(** X5. The workers of a pass report exactly once for every entry of the
    input list: the names sent on the two channels are together a
    permutation of the list (an entry listed twice reports twice); a
    success carries no error, a failure carries its error and the metric
    0. *)
Theorem launch_partition nodes w :
  (map name (launch nodes w).1.1 ++ map name (launch nodes w).1.2)%list ≡ₚ nodes /\
  (length (launch nodes w).1.1 + length (launch nodes w).1.2 = length nodes)%nat /\
  Forall (fun n => err n = None) (launch nodes w).1.1 /\
  Forall (fun n => is_Some (err n) /\ metric n = F64.zero) (launch nodes w).1.2.
Proof.
  pose proof (launch_names nodes w) as Hp. split_and!.
  - done.
  - apply Permutation_length in Hp. by rewrite length_app, !length_map in Hp.
  - eapply Forall_impl; [apply launch_stats|]. by intros n (_ & ? & _).
  - apply launch_errors.
Qed.

(** X6. A pass that is not served from the cache logs one line for every
    node whose fetch failed, with the node's name and its error, and
    nothing for the nodes that succeeded: its log grows by as many lines
    as the list has entries without a successful fetch. *)
Theorem fetching_pass_logs_failures nodes w :
  nodes <> [] -> usingCache nodes w = None ->
  let r := getBestNodeByMetrics nodes w in
  exists lines,
    logged r.2 = (logged w ++ lines)%list /\
    lines ≡ₚ retrievingLines (launch nodes w).1.2 /\
    (length lines + length (nodeStats nodes w) = length nodes)%nat.
Proof.
  intros Hne Hc. cbn zeta.
  exists (retrievingLines (received (launch nodes w).1.2)). split_and!.
  - by apply getBestNodeByMetrics_fetching_logged.
  - unfold retrievingLines. by rewrite received_perm.
  - unfold retrievingLines. rewrite received_perm.
    fold (retrievingLines (launch nodes w).1.2).
    rewrite retrievingLines_length by apply launch_errors.
    pose proof (launch_names nodes w) as Hp. apply Permutation_length in Hp.
    rewrite length_app, !length_map in Hp. unfold nodeStats. lia.
Qed.

(** X7. When every fetch of a pass fails, the call returns the zero node
    with [noNodeFound], leaves both cache slots as they were, has sent one
    request per entry and has logged one line per entry. *)
Theorem all_fetches_fail nodes w :
  nodes <> [] -> usingCache nodes w = None -> nodeStats nodes w = [] ->
  let r := getBestNodeByMetrics nodes w in
  r.1 = (zeroNode, Some noNodeFound) /\
  cachedNodes r.2 = cachedNodes w /\
  bestCachedNode r.2 = bestCachedNode w /\
  length (telemetry r.2) = (length (telemetry w) + length nodes)%nat /\
  length (logged r.2) = (length (logged w) + length nodes)%nat.
Proof.
  intros Hne Hc Hs. cbn zeta.
  destruct (getBestNodeByMetrics_fetching sysdigMetricLower nodes w Hne Hc)
    as (Hb & He & Hcn & Hbc & Ht).
  cbn zeta in *. rewrite Hs in Hb.
  assert (received [] = []) as Hr
    by (apply Permutation_nil_r; by rewrite received_perm).
  rewrite Hr, bestNodeFromList_nil in Hb. rewrite Hb in He, Hbc. simpl in He.
  rewrite He in Hbc. split_and!.
  - destruct (getBestNodeByMetrics nodes w) as [[? ?] ?]. simpl in *. by subst.
  - done.
  - done.
  - by rewrite Ht, length_app, length_map.
  - rewrite getBestNodeByMetrics_fetching_logged by done.
    unfold retrievingLines. rewrite received_perm.
    fold (retrievingLines (launch nodes w).1.2).
    rewrite length_app, retrievingLines_length by apply launch_errors.
    pose proof (launch_names nodes w) as Hp. apply Permutation_length in Hp.
    rewrite length_app, !length_map in Hp. unfold nodeStats in Hs.
    rewrite Hs in Hp. simpl in Hp. by rewrite Hp.
Qed.

(** X8. A call sends either no request at all or the whole batch: one
    request for every entry of the list (an entry listed twice is asked for
    twice, and a failing fetch stops nothing), in whatever order; it sends
    none exactly when the list is empty or the call is served from the
    cache. *)
Theorem requests_all_or_nothing nodes w :
  exists sent,
    telemetry (getBestNodeByMetrics nodes w).2 = (telemetry w ++ sent)%list /\
    sent ≡ₚ
      if bool_decide (nodes <> [] /\ usingCache nodes w = None)
      then map (fun n => hostQuery (nodeNameLittle n)) nodes
      else [].
Proof.
  case_bool_decide as Hd.
  - destruct Hd as [Hne Hc].
    exists (map (fun n => hostQuery (nodeNameLittle n)) nodes). split; [|done].
    by destruct (getBestNodeByMetrics_fetching sysdigMetricLower nodes w Hne Hc)
      as (_ & _ & _ & _ & ?).
  - exists []. split; [|done]. rewrite app_nil_r.
    destruct (decide (nodes = [])) as [->|Hne]; [done|].
    destruct (usingCache nodes w) as [b|] eqn:Hc; [|by destruct Hd].
    by rewrite (getBestNodeByMetrics_cached sysdigMetricLower nodes w b).
Qed.

(** X9. The metric of the node [bestNodeFromList] selects does not depend
    on the order in which the nodes arrive: two lists with the same nodes
    (and metrics that can be compared) give selections with equal
    metrics. *)
Theorem bestNodeFromList_order_independent (l l' : NodeList) :
  l ≡ₚ l' ->
  Forall (fun n => F64.is_nan (metric n) = false) l ->
  SFeqb (metric (bestNodeFromList sysdigMetricLower l))
        (metric (bestNodeFromList sysdigMetricLower l')) = true.
Proof.
  intros Hp Hnan. destruct (decide (l = [])) as [->|Hne].
  { apply Permutation_nil_l in Hp as <-. by rewrite bestNodeFromList_nil. }
  assert (l' <> []) as Hne'.
  { intros ->. by apply Permutation_nil_r in Hp. }
  assert (Forall (fun n => F64.is_nan (metric n) = false) l') as Hnan'
    by by rewrite <- Hp.
  destruct (bestNodeFromList_extremal sysdigMetricLower l Hne Hnan) as [Hin Hext].
  destruct (bestNodeFromList_extremal sysdigMetricLower l' Hne' Hnan')
    as [Hin' Hext'].
  cbn zeta in *.
  set (b := bestNodeFromList sysdigMetricLower l) in *.
  set (b' := bestNodeFromList sysdigMetricLower l') in *.
  clearbody b b'. rewrite Hp in Hin. rewrite <- Hp in Hin'.
  specialize (Hext _ Hin'). specialize (Hext' _ Hin).
  destruct sysdigMetricLower; by apply SFleb_antisym_eqb.
Qed.

End Pass.

(** ** nodesAvailable *)

Lemma nodesAvailable_slots listNodes w :
  Data (cachedNodes (nodesAvailable listNodes w).2) =
    Some (nodesAvailable listNodes w).1 /\
  bestCachedNode (nodesAvailable listNodes w).2 = bestCachedNode w /\
  telemetry (nodesAvailable listNodes w).2 = telemetry w.
Proof.
  unfold nodesAvailable. destruct (Data (cachedNodes w)) as [l|] eqn:Hl; [done|].
  by destruct listNodes as [ns [e|]].
Qed.

(** X10. After any call of [nodesAvailable] the ready-node slot holds the
    list the call returned, and every later call returns that same list and
    changes nothing, whatever the cluster would answer then: the listing is
    asked for at most once. No call touches the best-node slot or sends a
    telemetry request. *)
Theorem nodesAvailable_lists_once listNodes listNodes' w :
  let r := nodesAvailable listNodes w in
  Data (cachedNodes r.2) = Some r.1 /\
  nodesAvailable listNodes' r.2 = r /\
  bestCachedNode r.2 = bestCachedNode w /\
  telemetry r.2 = telemetry w.
Proof.
  cbn zeta. destruct (nodesAvailable_slots listNodes w) as (Hc & Hb & Ht).
  split_and!; [done | | done | done].
  unfold nodesAvailable at 1. rewrite Hc.
  by destruct (nodesAvailable listNodes w).
Qed.

(** X11. A name is in the list [nodesAvailable] gathers exactly when the
    listing holds a node of that name with a condition of type "Ready" and
    status "True" (both compared as written, letter case included). *)
Theorem readyNames_elem (nodes : list KubeNode) (nodeName : string) :
  nodeName ∈ readyNames nodes <->
  exists node status,
    node ∈ nodes /\ status ∈ Status_Conditions node /\
    c_Type status = "Ready" /\ c_Status status = "True" /\
    Metadata_Name node = nodeName.
Proof.
  unfold readyNames. rewrite list_elem_of_In, in_flat_map. split.
  - intros (node & Hn & Hin). apply in_flat_map in Hin as (status & Hs & Hin).
    exists node, status. rewrite !list_elem_of_In.
    destruct (String.eqb_spec (c_Status status) "True") as [HS|];
      [|by destruct Hin].
    destruct (String.eqb_spec (c_Type status) "Ready") as [HT|];
      [|by destruct Hin].
    simpl in Hin. destruct Hin as [<-|[]]. done.
  - intros (node & status & Hn & Hs & HT & HS & <-).
    exists node. rewrite <- list_elem_of_In. split; [done|].
    apply in_flat_map. exists status. rewrite <- list_elem_of_In.
    split; [done|]. rewrite HT, HS. by left.
Qed.

(** ** What the two operations keep *)

(** A node as a successful fetch produces it and the guard of
    [getBestNodeByMetrics] lets it pass. *)
Definition realNode (n : Node) : Prop :=
  name n <> "" /\
  SFeqb (metric n) F64.minus_one = false /\
  F64.json_number (metric n) = true /\
  err n = None.

Definition wellCached (w : World) : Prop :=
  forall b, Data (bestCachedNode w) = Some b -> realNode b.

(** The cached best node, when there is one, is named in the cached
    ready-node list. *)
Definition bestIsListed (w : World) : Prop :=
  forall b, Data (bestCachedNode w) = Some b ->
    exists readyNodes, Data (cachedNodes w) = Some readyNodes /\ name b ∈ readyNodes.

Section Invariants.
Context `{!SysdigAPI} `{!GoRuntime}.
Variable sysdigMetricLower : bool.

Abbreviation getBestNodeByMetrics := (getBestNodeByMetrics sysdigMetricLower).

(** The states the process can be in: it starts with both slots empty and
    calls the two operations in any order, on any arguments. *)
Inductive reachable : World -> Prop :=
  | reachable_start : reachable emptyWorld
  | reachable_rank nodes w :
      reachable w -> reachable (getBestNodeByMetrics nodes w).2
  | reachable_list listNodes w :
      reachable w -> reachable (nodesAvailable listNodes w).2.

(** A call that fails leaves the best-node slot as it was. *)
Lemma getBestNodeByMetrics_failure nodes w e :
  (getBestNodeByMetrics nodes w).1.2 = Some e ->
  bestCachedNode (getBestNodeByMetrics nodes w).2 = bestCachedNode w.
Proof.
  intros He. destruct (decide (nodes = [])) as [->|Hne]; [done|].
  destruct (usingCache nodes w) as [b|] eqn:Hc.
  - by rewrite (getBestNodeByMetrics_cached sysdigMetricLower nodes w b) in He.
  - destruct (getBestNodeByMetrics_fetching sysdigMetricLower nodes w Hne Hc)
      as (_ & _ & _ & Hbc & _).
    cbn zeta in Hbc. by rewrite Hbc, He.
Qed.

(** The node of a pass that fetches and succeeds is one of the fetched
    nodes. *)
Lemma fetching_success_fetched nodes w :
  nodes <> [] -> usingCache nodes w = None ->
  (getBestNodeByMetrics nodes w).1.2 = None ->
  (getBestNodeByMetrics nodes w).1.1 ∈ nodeStats nodes w /\
  name (getBestNodeByMetrics nodes w).1.1 <> "" /\
  SFeqb (metric (getBestNodeByMetrics nodes w).1.1) F64.minus_one = false.
Proof.
  intros Hne Hc Hok.
  destruct (getBestNodeByMetrics_fetching sysdigMetricLower nodes w Hne Hc)
    as (Hb & He & _).
  cbn zeta in *. rewrite Hok in He.
  destruct (String.eqb_spec (name (getBestNodeByMetrics nodes w).1.1) "")
    as [|Hname]; [done|].
  destruct (SFeqb (metric (getBestNodeByMetrics nodes w).1.1) F64.minus_one)
    eqn:Hm; [done|].
  split; [|done]. rewrite Hb in Hname |- *.
  assert (received (nodeStats nodes w) <> []) as Hr.
  { intros Hr. rewrite Hr, bestNodeFromList_nil in Hname. by apply Hname. }
  destruct (bestNodeFromList_extremal sysdigMetricLower _ Hr
              (nodeStats_not_nan nodes w)) as [Hin _].
  cbn zeta in Hin.
  set (b := bestNodeFromList sysdigMetricLower _) in *. clearbody b.
  by rewrite received_perm in Hin.
Qed.

Lemma wellCached_success nodes w :
  wellCached w ->
  (getBestNodeByMetrics nodes w).1.2 = None ->
  realNode (getBestNodeByMetrics nodes w).1.1.
Proof.
  intros Hw Hok. destruct (decide (nodes = [])) as [->|Hne]; [done|].
  destruct (usingCache nodes w) as [b|] eqn:Hc.
  - rewrite (getBestNodeByMetrics_cached sysdigMetricLower nodes w b) by done.
    apply Hw. by apply usingCache_Some in Hc as [_ ?].
  - destruct (fetching_success_fetched nodes w Hne Hc Hok) as (Hin & Hn & Hm).
    pose proof (launch_stats nodes w) as Hs. rewrite Forall_forall in Hs.
    destruct (Hs _ Hin) as (_ & He & Hj). by split_and!.
Qed.

Lemma reachable_wellCached w : reachable w -> wellCached w.
Proof.
  induction 1 as [|nodes w _ IH|listNodes w _ IH].
  - by intros b.
  - destruct (getBestNodeByMetrics nodes w).1.2 as [e|] eqn:He.
    + intros b. rewrite (getBestNodeByMetrics_failure nodes w e He). apply IH.
    + intros b. destruct (getBestNodeByMetrics_success _ nodes w He) as [_ Hb].
      rewrite Hb. intros [= <-]. by apply wellCached_success.
  - intros b. destruct (nodesAvailable_slots listNodes w) as (_ & -> & _).
    apply IH.
Qed.

(** X12. In every state the process can reach from the empty state by
    calls of [getBestNodeByMetrics] and [nodesAvailable], a call that
    returns without error returns a node with a non-empty name, no error
    attached and a finite metric other than -1, also when it is served
    from the cache; and the cached best node is always such a node. *)
Theorem reachable_success_is_real_node nodes w :
  reachable w ->
  wellCached w /\
  ((getBestNodeByMetrics nodes w).1.2 = None ->
   realNode (getBestNodeByMetrics nodes w).1.1).
Proof.
  intros Hr. pose proof (reachable_wellCached w Hr) as Hw.
  split; [done|]. by apply wellCached_success.
Qed.

(** X13. When [getBestNodeByMetrics] is called on the list that
    [nodesAvailable] returns, the cached best node stays named in the
    cached ready-node list, and a call that returns without error returns
    a node named in the list it was given, also when it is served from the
    cache. *)
Theorem listed_then_ranked listNodes w :
  bestIsListed w ->
  let listed := nodesAvailable listNodes w in
  let r := getBestNodeByMetrics listed.1 listed.2 in
  bestIsListed r.2 /\
  (r.1.2 = None -> name r.1.1 ∈ listed.1).
Proof.
  intros Hw. cbn zeta.
  destruct (nodesAvailable_slots listNodes w) as (Hc & Hb & _).
  set (l := (nodesAvailable listNodes w).1) in *.
  set (w1 := (nodesAvailable listNodes w).2) in *.
  assert (bestIsListed w1) as Hw1.
  { intros b Hb1. rewrite Hb in Hb1. destruct (Hw b Hb1) as (l0 & Hl0 & Hin).
    exists l. split; [done|].
    assert (w1 = w /\ l = l0) as [_ ->]; [|done].
    subst w1 l. unfold nodesAvailable. by rewrite Hl0. }
  clearbody l w1. clear Hw Hb w.
  pose proof (getBestNodeByMetrics_cachedNodes sysdigMetricLower l w1) as Hcn.
  assert ((getBestNodeByMetrics l w1).1.2 = None ->
          name (getBestNodeByMetrics l w1).1.1 ∈ l) as Hin.
  { intros Hok. destruct (decide (l = [])) as [->|Hne]; [done|].
    destruct (usingCache l w1) as [b|] eqn:Hu.
    - rewrite (getBestNodeByMetrics_cached sysdigMetricLower l w1 b) by done.
      apply usingCache_Some in Hu as [_ Hb].
      destruct (Hw1 b Hb) as (l0 & Hl0 & ?). rewrite Hc in Hl0.
      by injection Hl0 as <-.
    - destruct (fetching_success_fetched l w1 Hne Hu Hok) as (Hf & _).
      by eapply nodeStats_names. }
  split; [|done]. intros b Hb.
  destruct (getBestNodeByMetrics l w1).1.2 as [e|] eqn:He.
  - rewrite (getBestNodeByMetrics_failure l w1 e He) in Hb.
    destruct (Hw1 b Hb) as (l0 & Hl0 & ?). exists l0. by rewrite Hcn.
  - destruct (getBestNodeByMetrics_success _ l w1 He) as [_ Hb'].
    rewrite Hb' in Hb. injection Hb as <-. exists l.
    split; [by rewrite Hcn | by apply Hin].
Qed.

End Invariants.

(** ** The further properties on concrete inputs *)

(** X3 at an instance: the host "n3" is answered with status 500, and the
    value returned with the error is 0. *)
Lemma getMetrics_value_witness :
  (@getMetrics n1n2API "n3" emptyWorld).1.2 <> None /\
  (@getMetrics n1n2API "n3" emptyWorld).1.1 = F64.zero.
Proof.
  split; [by vm_compute|].
  apply (proj1 (proj2 (@getMetrics_value n1n2API "n3" emptyWorld F64.zero))).
  by vm_compute.
Defined.

(** X6 at an instance: of three nodes the third fails, and one line is
    logged. *)
Lemma fetching_pass_logs_failures_witness :
  let nodes := ["n1.example"; "n2.example"; "n3.example"] in
  let r := @getBestNodeByMetrics n1n2API lifoRuntime false nodes emptyWorld in
  nodes <> [] /\
  usingCache nodes emptyWorld = None /\
  exists lines,
    logged r.2 = (logged emptyWorld ++ lines)%list /\
    lines ≡ₚ retrievingLines (@launch n1n2API nodes emptyWorld).1.2 /\
    (length lines + length (@nodeStats n1n2API nodes emptyWorld) = length nodes)%nat.
Proof.
  cbn zeta. split; [done|]. split; [reflexivity|].
  apply (@fetching_pass_logs_failures n1n2API lifoRuntime false); [done | reflexivity].
Defined.

(** X7 at an instance: neither host is known to the service. *)
Lemma all_fetches_fail_witness :
  let nodes := ["x.example"; "y.example"] in
  let r := @getBestNodeByMetrics n1n2API fifoRuntime true nodes emptyWorld in
  nodes <> [] /\
  usingCache nodes emptyWorld = None /\
  @nodeStats n1n2API nodes emptyWorld = [] /\
  r.1 = (zeroNode, Some noNodeFound) /\
  cachedNodes r.2 = cachedNodes emptyWorld /\
  bestCachedNode r.2 = bestCachedNode emptyWorld /\
  length (telemetry r.2) = (length (telemetry emptyWorld) + length nodes)%nat /\
  length (logged r.2) = (length (logged emptyWorld) + length nodes)%nat.
Proof.
  cbn zeta. split; [done|]. split; [reflexivity|]. split; [by vm_compute|].
  apply (@all_fetches_fail n1n2API fifoRuntime true);
    [done | reflexivity | by vm_compute].
Defined.

(** X9 at an instance: three nodes in two orders, lower is better. *)
Lemma bestNodeFromList_order_independent_witness :
  let a := mkNode "a" (F64.of_Z 3) None in
  let b := mkNode "b" (F64.of_Z (-2)) None in
  let c := mkNode "c" (F64.of_Z 7) None in
  [a; b; c] ≡ₚ [c; a; b] /\
  Forall (fun n => F64.is_nan (metric n) = false) [a; b; c] /\
  SFeqb (metric (@bestNodeFromList fifoRuntime true [a; b; c]))
        (metric (@bestNodeFromList fifoRuntime true [c; a; b])) = true.
Proof.
  cbn zeta.
  assert ([mkNode "a" (F64.of_Z 3) None; mkNode "b" (F64.of_Z (-2)) None;
           mkNode "c" (F64.of_Z 7) None] ≡ₚ
          [mkNode "c" (F64.of_Z 7) None; mkNode "a" (F64.of_Z 3) None;
           mkNode "b" (F64.of_Z (-2)) None]) as Hp.
  { symmetry. apply (Permutation_cons_append [_; _]). }
  assert (Forall (fun n => F64.is_nan (metric n) = false)
            [mkNode "a" (F64.of_Z 3) None; mkNode "b" (F64.of_Z (-2)) None;
             mkNode "c" (F64.of_Z 7) None]) as Hn.
  { by repeat constructor. }
  split; [exact Hp|]. split; [exact Hn|].
  exact (@bestNodeFromList_order_independent fifoRuntime true _ _ Hp Hn).
Defined.

(** X12 at an instance: the state after one successful pass, and a second
    pass over another list. *)
Lemma reachable_success_is_real_node_witness :
  let w := (@getBestNodeByMetrics n1n2API fifoRuntime false ["n1"] emptyWorld).2 in
  let r := @getBestNodeByMetrics n1n2API fifoRuntime false ["n2"] w in
  @reachable n1n2API fifoRuntime false w /\
  r.1.2 = None /\
  realNode r.1.1.
Proof.
  cbn zeta.
  assert (@reachable n1n2API fifoRuntime false
            (@getBestNodeByMetrics n1n2API fifoRuntime false ["n1"] emptyWorld).2)
    as Hr by (apply reachable_rank, reachable_start).
  split; [exact Hr|]. split; [by vm_compute|].
  apply (proj2 (@reachable_success_is_real_node n1n2API fifoRuntime false
                  ["n2"] _ Hr)).
  by vm_compute.
Defined.

(** X13 at an instance: from the empty state, two ready nodes are listed
    and ranked. *)
Lemma listed_then_ranked_witness :
  let listNodes :=
    ([mkKubeNode "n1" [mkCondition "Ready" "True"];
      mkKubeNode "n2" [mkCondition "Ready" "True"]], None) in
  let listed := nodesAvailable listNodes emptyWorld in
  let r := @getBestNodeByMetrics n1n2API fifoRuntime false listed.1 listed.2 in
  bestIsListed emptyWorld /\
  bestIsListed r.2 /\
  r.1.2 = None /\
  name r.1.1 ∈ listed.1.
Proof.
  cbn zeta.
  assert (bestIsListed emptyWorld) as Hw by (by intros b).
  split; [exact Hw|].
  destruct (@listed_then_ranked n1n2API fifoRuntime false
              ([mkKubeNode "n1" [mkCondition "Ready" "True"];
                mkKubeNode "n2" [mkCondition "Ready" "True"]], None)
              emptyWorld Hw) as [Hl Hin].
  split; [exact Hl|]. split; [by vm_compute|]. apply Hin. by vm_compute.
Defined.
